(** * HttpEventBridgeIntegration: the HTTP API -> EventBridge PutEvents binder

    A shallow embedding of
    [packages/aws-cdk-lib/aws-apigatewayv2-integrations/lib/http/eventbridge.ts]
    together with the small part of the construct framework that [bind]
    calls into (construct tree, IAM role, ARN formatting, parameter
    mapping), and the properties of [bind]. *)

From stdpp Require Import gmap strings list fin_maps.
From Stdlib Require Import Ascii.

(** ** Errors and the construct-tree monad *)

(** A construct is addressed by its path from the root of the app, root
    first, such as stack / EventBridgeRoute / InvokeRole. *)
Abbreviation ConstructPath := (list string).

Inductive Error : Type :=
  | DuplicateConstructName (name : string) (scope : ConstructPath)
  | MalformedArn (arn : string).

Inductive Outcome (A : Type) : Type :=
  | Returned (a : A)
  | Thrown (e : Error).
Arguments Returned {A} a.
Arguments Thrown {A} e.

Module iam.

(** Modelled from the spec: the statement and principal types of aws-iam
    (not under src/), with the fields the integration sets and the tests
    read: effect, sid, principals, actions, resources. *)
Inductive Effect : Type := ALLOW | DENY.

Inductive Principal : Type :=
  | ServicePrincipal (service : string)
  | AccountPrincipal (accountId : string)
  | ArnPrincipal (arn : string)
  | WebIdentityPrincipal (identityProvider : string).

(** Modelled from the spec: [IPrincipal.assumeRoleAction] of aws-iam
    (not under src/): the role trust policy has principal = API-gateway
    service principal, action = assume-role. *)
Definition assumeRoleAction (p : Principal) : string :=
  match p with
  | WebIdentityPrincipal _ => "sts:AssumeRoleWithWebIdentity"
  | _ => "sts:AssumeRole"
  end.

Record PolicyStatement : Type := mkPolicyStatement {
  effect : Effect;
  sid : option string;
  principals : list Principal;
  actions : list string;
  resources : list string;
}.

Record RoleProps : Type := { assumedBy : Principal }.

(** Modelled from the spec: the [iam.Role] construct of aws-iam (not under
    src/): a role carries the trust policy made from [assumedBy] and the
    permission statements attached to it with [addToPolicy]. *)
Record Role : Type := mkRole {
  assumeRolePolicy : list PolicyStatement;
  policyStatements : list PolicyStatement;
}.

Definition createAssumeRolePolicy (p : Principal) : list PolicyStatement :=
  [ {| effect := ALLOW; sid := None; principals := [p];
       actions := [assumeRoleAction p]; resources := [] |} ].

End iam.

(** The nodes of the construct tree that matter here: roles, and any other
    resource, of which only the kind is kept. *)
Inductive Construct : Type :=
  | CRole (r : iam.Role)
  | CResource (kind : string).

Abbreviation Tree := (gmap ConstructPath Construct).

(** Computations over the construct tree that may throw.  A thrown error
    leaves the tree as it was when the error was raised, as a JavaScript
    exception does. *)
Definition M (A : Type) : Type := Tree → Outcome A * Tree.

#[global] Instance M_ret : MRet M := λ A a t, (Returned a, t).
#[global] Instance M_bind : MBind M := λ A B f m t,
  match m t with
  | (Returned a, t') => f a t'
  | (Thrown e, t') => (Thrown e, t')
  end.
Definition throw {A : Type} (e : Error) : M A := λ t, (Thrown e, t).

Definition hasChild (t : Tree) (scope : ConstructPath) (name : string) : Prop :=
  is_Some (t !! (scope ++ [name])).

#[global] Instance hasChild_dec t scope name : Decision (hasChild t scope name) :=
  decide (is_Some (t !! (scope ++ [name]))).

(** Modelled from the spec: the construct constructor of the framework (not
    under src/), which registers the construct as a node in the
    caller-visible resource graph.  Names are unique among the children of a
    scope: registering a second child under a name already taken throws and
    registers nothing. *)
Definition addChild (scope : ConstructPath) (name : string) (c : Construct)
  : M ConstructPath :=
  λ t, if decide (hasChild t scope name)
       then (Thrown (DuplicateConstructName name scope), t)
       else (Returned (scope ++ [name]), <[scope ++ [name] := c]> t).

Module Role.

(** Modelled from the spec: [new iam.Role(scope, id, props)] of aws-iam (not
    under src/): a new role trusted by [assumedBy], registered under [id] in
    [scope].  The result is the handle of the role, its path in the tree. *)
Definition new (scope : ConstructPath) (id : string) (props : iam.RoleProps)
  : M ConstructPath :=
  addChild scope id
    (CRole {| iam.assumeRolePolicy := iam.createAssumeRolePolicy (iam.assumedBy props);
              iam.policyStatements := [] |}).

Definition addStatement (st : iam.PolicyStatement) (c : Construct) : Construct :=
  match c with
  | CRole r => CRole {| iam.assumeRolePolicy := iam.assumeRolePolicy r;
                       iam.policyStatements := iam.policyStatements r ++ [st] |}
  | CResource k => CResource k
  end.

(** Modelled from the spec: [role.addToPolicy(statement)] of aws-iam (not
    under src/): attaches the statement to the role; the framework returns
    [true] when the statement was added. *)
Definition addToPolicy (role : ConstructPath) (st : iam.PolicyStatement) : M bool :=
  λ t, (Returned true, alter (addStatement st) role t).

End Role.

(** The roles registered in a tree. *)
Definition roleOf (c : Construct) : option iam.Role :=
  match c with CRole r => Some r | CResource _ => None end.

Definition roles (t : Tree) : gmap ConstructPath iam.Role := omap roleOf t.

(** ** Strings: the two JavaScript string operations the ARN code uses *)

(** [s.split(sep)] for a one-character separator: always at least one
    piece, the empty string splits into one empty piece. *)
Fixpoint split (sep : ascii) (s : string) : list string :=
  match s with
  | EmptyString => [EmptyString]
  | String a r =>
      if Ascii.eqb a sep then EmptyString :: split sep r
      else match split sep r with
           | h :: tl => String a h :: tl
           | [] => [String a EmptyString]
           end
  end.

(** [pieces.join(sep)]. *)
Fixpoint join (sep : string) (pieces : list string) : string :=
  match pieces with
  | [] => ""
  | [p] => p
  | p :: rest => p +:+ sep +:+ join sep rest
  end.

(** The text before and after the first occurrence of [c], if there is one
    ([indexOf] followed by two [slice]s). *)
Fixpoint breakAt (c : ascii) (s : string) : option (string * string) :=
  match s with
  | EmptyString => None
  | String a r =>
      if Ascii.eqb a c then Some (EmptyString, r)
      else match breakAt c r with
           | Some (before, after) => Some (String a before, after)
           | None => None
           end
  end.

(** [c] does not occur in [s]. *)
Fixpoint lacks (c : ascii) (s : string) : bool :=
  match s with
  | EmptyString => true
  | String a r => negb (Ascii.eqb a c) && lacks c r
  end.

Module core.

(** The deployment environment of a stack.  The three attributes are
    strings; for an environment-agnostic stack they are the string forms of
    the references to [AWS::Partition], [AWS::Region] and [AWS::AccountId]. *)
Record Stack : Type := {
  partition : string;
  region : string;
  account : string;
}.

Record ArnComponents : Type := mkArn {
  arnPartition : option string;
  service : string;
  arnRegion : option string;
  arnAccount : option string;
  resource : string;
  resourceName : option string;
}.

(** Modelled from the spec: [Stack.formatArn] of core (not under src/), the
    standard identifier-construction convention of the deployment platform,
    partition, service, region, account and resource type separated by
    colons, then a slash and the resource name.  Partition, region and
    account default to those of the stack. *)
Definition formatArn (stack : Stack) (c : ArnComponents) : string :=
  "arn:" +:+ default (partition stack) (arnPartition c) +:+ ":" +:+
  service c +:+ ":" +:+ default (region stack) (arnRegion c) +:+ ":" +:+
  default (account stack) (arnAccount c) +:+ ":" +:+ resource c +:+
  match resourceName c with
  | Some name => "/" +:+ name
  | None => ""
  end.

(** Modelled from the spec: [Stack.splitArn] of core (not under src/) for
    ARNs of the shape [arn:partition:service:region:account:resource/name],
    which yields the name parsed out of that ARN.  An ARN has at least six
    colon-separated components, the first being [arn]; the sixth is cut at
    its first slash, and further components belong to the name. *)
Definition splitArn (arn : string) : Outcome ArnComponents :=
  match split ":" arn with
  | "arn" :: p :: s :: r :: a :: resourceTypeOrName :: rest =>
      let '(res, name) :=
        match breakAt "/" resourceTypeOrName with
        | Some (before, after) => (before, Some after)
        | None => (resourceTypeOrName, None)
        end in
      let name :=
        match rest with
        | [] => name
        | _ => match name with
               | None | Some "" => Some (join ":" rest)
               | Some n => Some (n +:+ ":" +:+ join ":" rest)
               end
        end in
      Returned {| arnPartition := Some p; service := s; arnRegion := Some r;
                  arnAccount := Some a; resource := res; resourceName := name |}
  | _ => Thrown (MalformedArn arn)
  end.

End core.

Module events.

(** The two attributes of [IEventBus] that the integration reads. *)
Record IEventBus : Type := {
  eventBusArn : string;
  eventBusName : string;
}.

(** Modelled from the spec: [EventBus.fromEventBusArn] of aws-events (not
    under src/), a resolved, externally-referenced target resource
    identified only by ARN, with no separately known name: the name is the
    one parsed out of the ARN, the empty string when the ARN has none. *)
Definition fromEventBusArn (scope : ConstructPath) (id : string) (arn : string)
  : M IEventBus :=
  match core.splitArn arn with
  | Thrown e => throw e
  | Returned parts =>
      addChild scope id (CResource "ImportedEventBus");;
      mret {| eventBusArn := arn;
              eventBusName := default "" (core.resourceName parts) |}
  end.

End events.

Module apigwv2.

(** Modelled from the spec: the enumerations of aws-apigatewayv2 (not under
    src/) and the literal each one is rendered as: transport type
    AWS_PROXY, subtype EventBridge-PutEvents, payload format version 1.0,
    connection type INTERNET. *)
Inductive HttpIntegrationType : Type := HTTP_PROXY | AWS_PROXY.

Inductive HttpIntegrationSubtype : Type :=
  | EVENTBRIDGE_PUT_EVENTS
  | SQS_SEND_MESSAGE
  | STEPFUNCTIONS_START_EXECUTION.

Inductive HttpConnectionType : Type := VPC_LINK | INTERNET.

Record PayloadFormatVersion : Type := { version : string }.
Definition VERSION_1_0 : PayloadFormatVersion := {| version := "1.0" |}.
Definition VERSION_2_0 : PayloadFormatVersion := {| version := "2.0" |}.

Definition integrationTypeValue (ty : HttpIntegrationType) : string :=
  match ty with HTTP_PROXY => "HTTP_PROXY" | AWS_PROXY => "AWS_PROXY" end.

Definition integrationSubtypeValue (st : HttpIntegrationSubtype) : string :=
  match st with
  | EVENTBRIDGE_PUT_EVENTS => "EventBridge-PutEvents"
  | SQS_SEND_MESSAGE => "SQS-SendMessage"
  | STEPFUNCTIONS_START_EXECUTION => "StepFunctions-StartExecution"
  end.

Definition connectionTypeValue (ct : HttpConnectionType) : string :=
  match ct with VPC_LINK => "VPC_LINK" | INTERNET => "INTERNET" end.

(** Modelled from the spec: [ParameterMapping] of aws-apigatewayv2 (not
    under src/), a mapping of string key to string value with normal mapping
    semantics: the last write wins for a key. *)
Record ParameterMapping : Type := { mappings : gmap string string }.

Definition newParameterMapping : ParameterMapping := {| mappings := ∅ |}.

Definition custom (key value : string) (this : ParameterMapping) : ParameterMapping :=
  {| mappings := <[key := value]> (mappings this) |}.

(** Modelled from the spec: [IntegrationCredentials] of aws-apigatewayv2
    (not under src/), the credentials reference of an integration;
    [fromRole] refers to a role of the construct tree by its handle. *)
Inductive IntegrationCredentials : Type :=
  | fromRole (role : ConstructPath)
  | fromArn (arn : string)
  | useCallerIdentity.

(** Modelled from the spec: the binding context of aws-apigatewayv2 (not
    under src/): the route, of which [bind] reads the stack, and the scope in
    which the role is created. *)
Record IHttpRoute : Type := { stack : core.Stack }.

Record HttpRouteIntegrationBindOptions : Type := {
  route : IHttpRoute;
  scope : ConstructPath;
}.

(** Modelled from the spec: the IntegrationConfig of the data model, with
    the six fields that [bind] sets. *)
Record HttpRouteIntegrationConfig : Type := {
  payloadFormatVersion : PayloadFormatVersion;
  type : HttpIntegrationType;
  subtype : HttpIntegrationSubtype;
  credentials : IntegrationCredentials;
  connectionType : HttpConnectionType;
  parameterMapping : ParameterMapping;
}.

End apigwv2.

(** ** The integration: eventbridge.ts *)

Module eventbridge.

Record HttpEventBridgeIntegrationProps : Type := {
  parameterMapping : option apigwv2.ParameterMapping;
  eventBus : option events.IEventBus;
}.

(** An instance of the class: the constructor stores [id] and [props]. *)
Record HttpEventBridgeIntegration : Type := {
  id : string;
  props : HttpEventBridgeIntegrationProps;
}.

(** [constructor(id, props = {})]. *)
Definition new (id : string) (props : option HttpEventBridgeIntegrationProps)
  : HttpEventBridgeIntegration :=
  {| id := id;
     props := default {| parameterMapping := None; eventBus := None |} props |}.

Definition createDefaultParameterMapping (this : HttpEventBridgeIntegration)
  : apigwv2.ParameterMapping :=
  let mapping :=
    apigwv2.custom "Source" "$request.body.Source"
      (apigwv2.custom "DetailType" "$request.body.DetailType"
        (apigwv2.custom "Detail" "$request.body.Detail"
          apigwv2.newParameterMapping)) in
  (* If an event bus is specified, add it to the parameter mapping *)
  match eventBus (props this) with
  | Some bus => apigwv2.custom "EventBusName" (events.eventBusName bus) mapping
  | None => mapping
  end.

Definition bind (this : HttpEventBridgeIntegration)
  (options : apigwv2.HttpRouteIntegrationBindOptions)
  : M apigwv2.HttpRouteIntegrationConfig :=
  invokeRole ← Role.new (apigwv2.scope options) "InvokeRole"
    {| iam.assumedBy := iam.ServicePrincipal "apigateway.amazonaws.com" |};
  (* Determine the event bus ARN - if none specified, grant to all event
     buses in the account *)
  let eventBusArn :=
    match eventBus (props this) with
    | Some bus => events.eventBusArn bus
    | None =>
        core.formatArn (apigwv2.stack (apigwv2.route options))
          {| core.arnPartition := None; core.service := "events";
             core.arnRegion := None; core.arnAccount := None;
             core.resource := "event-bus"; core.resourceName := Some "*" |}
    end in
  Role.addToPolicy invokeRole
    {| iam.effect := iam.ALLOW;
       iam.sid := Some "AllowEventBridgePutEvents";
       iam.principals := [];
       iam.actions := ["events:PutEvents"];
       iam.resources := [eventBusArn] |};;
  mret {| apigwv2.payloadFormatVersion := apigwv2.VERSION_1_0;
          apigwv2.type := apigwv2.AWS_PROXY;
          apigwv2.subtype := apigwv2.EVENTBRIDGE_PUT_EVENTS;
          apigwv2.credentials := apigwv2.fromRole invokeRole;
          apigwv2.connectionType := apigwv2.INTERNET;
          apigwv2.parameterMapping :=
            match parameterMapping (props this) with
            | Some mapping => mapping
            | None => createDefaultParameterMapping this
            end |}.

End eventbridge.

(** ** What one run of [bind] does *)

Section BindRun.

Import eventbridge.

Variable this : HttpEventBridgeIntegration.
Variable options : apigwv2.HttpRouteIntegrationBindOptions.

(** The handle of the role [bind] creates. *)
Definition invokeRolePath : ConstructPath := apigwv2.scope options ++ ["InvokeRole"].

(** The resource [bind] grants the publish action on. *)
Definition grantedArn : string :=
  match eventBus (props this) with
  | Some bus => events.eventBusArn bus
  | None =>
      "arn:" +:+ core.partition (apigwv2.stack (apigwv2.route options)) +:+
      ":events:" +:+ core.region (apigwv2.stack (apigwv2.route options)) +:+
      ":" +:+ core.account (apigwv2.stack (apigwv2.route options)) +:+
      ":event-bus/*"
  end.

Definition grant : iam.PolicyStatement :=
  {| iam.effect := iam.ALLOW;
     iam.sid := Some "AllowEventBridgePutEvents";
     iam.principals := [];
     iam.actions := ["events:PutEvents"];
     iam.resources := [grantedArn] |}.

Definition invokeRole : iam.Role :=
  {| iam.assumeRolePolicy :=
       [ {| iam.effect := iam.ALLOW; iam.sid := None;
            iam.principals := [iam.ServicePrincipal "apigateway.amazonaws.com"];
            iam.actions := ["sts:AssumeRole"]; iam.resources := [] |} ];
     iam.policyStatements := [grant] |}.

Definition boundConfig : apigwv2.HttpRouteIntegrationConfig :=
  {| apigwv2.payloadFormatVersion := apigwv2.VERSION_1_0;
     apigwv2.type := apigwv2.AWS_PROXY;
     apigwv2.subtype := apigwv2.EVENTBRIDGE_PUT_EVENTS;
     apigwv2.credentials := apigwv2.fromRole invokeRolePath;
     apigwv2.connectionType := apigwv2.INTERNET;
     apigwv2.parameterMapping :=
       match parameterMapping (props this) with
       | Some mapping => mapping
       | None => createDefaultParameterMapping this
       end |}.

End BindRun.

(** The ARN of the event bus [name] in the given partition, region and
    account. *)
Definition eventBusArnOf (p r a name : string) : string :=
  "arn:" +:+ p +:+ ":events:" +:+ r +:+ ":" +:+ a +:+ ":event-bus/" +:+ name.

(** ** Concrete trees: the stack of the unit tests *)

Definition testStack : core.Stack :=
  {| core.partition := "aws"; core.region := "us-east-1";
     core.account := "123456789012" |}.

Definition testTree : Tree :=
  {[ ["stack"] := CResource "Stack";
     ["stack"; "HttpApi"] := CResource "HttpApi";
     ["stack"; "EventBridgeRoute"] := CResource "HttpRoute" ]}.

Definition testOptions : apigwv2.HttpRouteIntegrationBindOptions :=
  {| apigwv2.route := {| apigwv2.stack := testStack |};
     apigwv2.scope := ["stack"; "EventBridgeRoute"] |}.

Definition testBus : events.IEventBus :=
  {| events.eventBusArn := "arn:aws:events:us-east-1:123456789012:event-bus/orders";
     events.eventBusName := "orders" |}.

Definition testMapping : apigwv2.ParameterMapping :=
  apigwv2.custom "Time" "$request.body.time"
    (apigwv2.custom "Detail" "$request.body.detail" apigwv2.newParameterMapping).

Definition testTree2 : Tree :=
  <[ ["stack"; "EventBus"] := CResource "EventBus" ]> testTree.

Definition thisDefault : eventbridge.HttpEventBridgeIntegration :=
  eventbridge.new "Integration" None.

Definition thisWithBus : eventbridge.HttpEventBridgeIntegration :=
  eventbridge.new "Integration"
    (Some {| eventbridge.parameterMapping := None;
             eventbridge.eventBus := Some testBus |}).

Definition thisCustom : eventbridge.HttpEventBridgeIntegration :=
  eventbridge.new "Integration"
    (Some {| eventbridge.parameterMapping := Some testMapping;
             eventbridge.eventBus := Some testBus |}).

(** The test tree after one [bind] on the route. *)
Definition boundTree : Tree := snd (eventbridge.bind thisWithBus testOptions testTree).

(** ** Several invocations *)

(** Direct invocations of [bind] one after the other, each with its own
    integration and bind options.  The first exception ends the run; what
    was registered before it stays registered.  This is plain iteration of
    [bind]: the route binding of the framework, which binds an integration
    instance once and reuses the result on every later route, is not part
    of it. *)
Fixpoint bindEach
  (calls : list (eventbridge.HttpEventBridgeIntegration *
                 apigwv2.HttpRouteIntegrationBindOptions))
  : M (list apigwv2.HttpRouteIntegrationConfig) :=
  match calls with
  | [] => mret []
  | (integration, options) :: rest =>
      config ← eventbridge.bind integration options;
      configs ← bindEach rest;
      mret (config :: configs)
  end.

(** The stack of the integration test: an event bus, known by the string
    forms of the references to its ARN and name, an HTTP API and three
    routes, each with an integration of its own. *)
Definition integBus : events.IEventBus :=
  {| events.eventBusArn := "${EventBus.Arn}";
     events.eventBusName := "${EventBus}" |}.

Definition integStack : core.Stack :=
  {| core.partition := "${AWS::Partition}"; core.region := "${AWS::Region}";
     core.account := "${AWS::AccountId}" |}.

Definition integScope (routeId : string) : apigwv2.HttpRouteIntegrationBindOptions :=
  {| apigwv2.route := {| apigwv2.stack := integStack |};
     apigwv2.scope := ["eventbridge-integration"; "Api"; routeId] |}.

Definition integTree : Tree :=
  {[ ["eventbridge-integration"] := CResource "Stack";
     ["eventbridge-integration"; "EventBus"] := CResource "EventBus";
     ["eventbridge-integration"; "Api"] := CResource "HttpApi";
     ["eventbridge-integration"; "Api"; "POST--events"] := CResource "HttpRoute";
     ["eventbridge-integration"; "Api"; "POST--default-bus"] := CResource "HttpRoute";
     ["eventbridge-integration"; "Api"; "POST--custom-mapping"] := CResource "HttpRoute" ]}.

Definition integRoutes
  : list (eventbridge.HttpEventBridgeIntegration *
          apigwv2.HttpRouteIntegrationBindOptions) :=
  [ (eventbridge.new "EventBridgeIntegration"
       (Some {| eventbridge.parameterMapping := None;
                eventbridge.eventBus := Some integBus |}),
     integScope "POST--events");
    (eventbridge.new "DefaultBusIntegration" None,
     integScope "POST--default-bus");
    (eventbridge.new "CustomMappingIntegration"
       (Some {| eventbridge.parameterMapping :=
                  Some (apigwv2.custom "EventBusName" (events.eventBusName integBus)
                         (apigwv2.custom "Source" "$request.body.source"
                           (apigwv2.custom "DetailType" "$request.body.detailType"
                             (apigwv2.custom "Detail" "$request.body.detail"
                               apigwv2.newParameterMapping))));
                eventbridge.eventBus := Some integBus |}),
     integScope "POST--custom-mapping") ].

(** The options of the unit tests in a stack of another partition. *)
Definition testOptionsChina : apigwv2.HttpRouteIntegrationBindOptions :=
  {| apigwv2.route :=
       {| apigwv2.stack := {| core.partition := "aws-cn";
                              core.region := "cn-north-1";
                              core.account := "210987654321" |} |};
     apigwv2.scope := ["stack"; "EventBridgeRoute"] |}.

(** ** Splitting what was joined *)

Section Strings.

Variable sep : ascii.

Lemma lacks_cons (a : ascii) (s : string) :
  lacks sep (String a s) = true ↔ a ≠ sep ∧ lacks sep s = true.
Proof.
  simpl. rewrite andb_true_iff, negb_true_iff.
  by rewrite <- not_true_iff_false, Ascii.eqb_eq.
Qed.

Lemma lacks_app (s1 s2 : string) :
  lacks sep s1 = true → lacks sep s2 = true → lacks sep (s1 +:+ s2) = true.
Proof.
  intros H1 H2. induction s1 as [|a s1 IH]; [done|].
  apply lacks_cons in H1 as [Ha H1].
  change (String a s1 +:+ s2) with (String a (s1 +:+ s2)).
  apply lacks_cons. auto.
Qed.

Lemma split_lacks (s : string) : lacks sep s = true → split sep s = [s].
Proof.
  induction s as [|a s IH]; [done|].
  intros [Ha Hs]%lacks_cons. simpl.
  rewrite (proj2 (Ascii.eqb_neq a sep) Ha).
  by rewrite IH.
Qed.

Lemma split_app (s1 s2 : string) :
  lacks sep s1 = true →
  split sep (s1 +:+ String sep s2) = s1 :: split sep s2.
Proof.
  induction s1 as [|a s1 IH].
  - intros _. simpl. by rewrite Ascii.eqb_refl.
  - intros [Ha Hs]%lacks_cons. simpl.
    rewrite (proj2 (Ascii.eqb_neq a sep) Ha).
    by rewrite IH.
Qed.

Lemma breakAt_app (s1 s2 : string) :
  lacks sep s1 = true →
  breakAt sep (s1 +:+ String sep s2) = Some (s1, s2).
Proof.
  induction s1 as [|a s1 IH].
  - intros _. simpl. by rewrite Ascii.eqb_refl.
  - intros [Ha Hs]%lacks_cons. simpl.
    rewrite (proj2 (Ascii.eqb_neq a sep) Ha).
    by rewrite IH.
Qed.

End Strings.

Lemma splitArn_eventBusArnOf (p r a name : string) :
  lacks ":" p = true → lacks ":" r = true → lacks ":" a = true →
  lacks ":" name = true →
  core.splitArn (eventBusArnOf p r a name) =
    Returned {| core.arnPartition := Some p; core.service := "events";
                core.arnRegion := Some r; core.arnAccount := Some a;
                core.resource := "event-bus"; core.resourceName := Some name |}.
Proof.
  intros Hp Hr Ha Hname. unfold core.splitArn.
  change (eventBusArnOf p r a name) with
    ("arn" +:+ String ":" (p +:+ String ":" ("events" +:+ String ":"
       (r +:+ String ":" (a +:+ String ":" ("event-bus" +:+ String "/" name)))))).
  rewrite !split_app by done.
  rewrite split_lacks by (by apply lacks_app).
  by rewrite (breakAt_app "/" "event-bus" name).
Qed.

(** ** One run of [bind], computed *)

Section BindRunFacts.

Import eventbridge.

Variable this : HttpEventBridgeIntegration.
Variable options : apigwv2.HttpRouteIntegrationBindOptions.

Lemma formatArn_wildcard :
  core.formatArn (apigwv2.stack (apigwv2.route options))
    {| core.arnPartition := None; core.service := "events";
       core.arnRegion := None; core.arnAccount := None;
       core.resource := "event-bus"; core.resourceName := Some "*" |}
  = "arn:" +:+ core.partition (apigwv2.stack (apigwv2.route options)) +:+
    ":events:" +:+ core.region (apigwv2.stack (apigwv2.route options)) +:+
    ":" +:+ core.account (apigwv2.stack (apigwv2.route options)) +:+
    ":event-bus/*".
Proof. reflexivity. Qed.

(** On a scope where the name is free, [bind] returns and leaves exactly
    the role behind. *)
Lemma bind_fresh (t : Tree) :
  ¬ hasChild t (apigwv2.scope options) "InvokeRole" →
  bind this options t =
    (Returned (boundConfig this options),
     <[invokeRolePath options := CRole (invokeRole this options)]> t).
Proof.
  intros Hfree.
  unfold bind, mbind, M_bind, Role.new, addChild, Role.addToPolicy, mret, M_ret.
  rewrite decide_False by done.
  rewrite alter_insert_eq. simpl.
  unfold boundConfig, invokeRolePath, invokeRole, grant, grantedArn.
  destruct (eventBus (props this)); [done|].
  by rewrite formatArn_wildcard.
Qed.

(** On a scope where the name is taken, [bind] throws what the construct
    tree throws and changes nothing. *)
Lemma bind_taken (t : Tree) :
  hasChild t (apigwv2.scope options) "InvokeRole" →
  bind this options t =
    (Thrown (DuplicateConstructName "InvokeRole" (apigwv2.scope options)), t).
Proof.
  intros Htaken.
  unfold bind, mbind, M_bind, Role.new, addChild.
  by rewrite decide_True.
Qed.

Lemma bind_fresh_lookup (t : Tree) :
  (<[invokeRolePath options := CRole (invokeRole this options)]> t)
    !! invokeRolePath options = Some (CRole (invokeRole this options)).
Proof. apply lookup_insert_eq. Qed.

End BindRunFacts.

(** ** Properties of [bind] *)

Section Claims.

Import eventbridge.

Implicit Types (this : HttpEventBridgeIntegration).
Implicit Types (options : apigwv2.HttpRouteIntegrationBindOptions).
Implicit Types (t : Tree) (bus : events.IEventBus).

Lemma default_mapping_dom3 :
  dom ((<["Source" := "$request.body.Source"]>
         (<["DetailType" := "$request.body.DetailType"]>
           (<["Detail" := "$request.body.Detail"]> ∅))) : gmap string string)
  = {[ "Detail"; "DetailType"; "Source" ]}.
Proof. rewrite !dom_insert_L, dom_empty_L. set_solver. Qed.

(** C1.  With no custom mapping and a target event bus with identifier I
    (its ARN) and name N, [bind] returns a configuration whose parameter
    mapping has exactly the four keys Detail, DetailType, Source and
    EventBusName, the first three mapped to the matching field of the
    request body and EventBusName mapped to N, and the permission statement
    of the role it created has I as its resource. *)
Theorem bind_default_mapping_with_bus this options t bus :
  parameterMapping (props this) = None →
  eventBus (props this) = Some bus →
  ¬ hasChild t (apigwv2.scope options) "InvokeRole" →
  ∃ config t' role statement,
    bind this options t = (Returned config, t') ∧
    dom (apigwv2.mappings (apigwv2.parameterMapping config))
      = {[ "Detail"; "DetailType"; "Source"; "EventBusName" ]} ∧
    apigwv2.mappings (apigwv2.parameterMapping config) !! "Detail"
      = Some "$request.body.Detail" ∧
    apigwv2.mappings (apigwv2.parameterMapping config) !! "DetailType"
      = Some "$request.body.DetailType" ∧
    apigwv2.mappings (apigwv2.parameterMapping config) !! "Source"
      = Some "$request.body.Source" ∧
    apigwv2.mappings (apigwv2.parameterMapping config) !! "EventBusName"
      = Some (events.eventBusName bus) ∧
    t' !! (apigwv2.scope options ++ ["InvokeRole"]) = Some (CRole role) ∧
    iam.policyStatements role = [statement] ∧
    iam.resources statement = [events.eventBusArn bus].
Proof.
  intros Hmap Hbus Hfree.
  exists (boundConfig this options), (<[invokeRolePath options := CRole (invokeRole this options)]> t),
    (invokeRole this options), (grant this options).
  split; [by apply bind_fresh|].
  unfold boundConfig, createDefaultParameterMapping, grantedArn; simpl.
  rewrite Hmap, Hbus; simpl.
  split; [rewrite dom_insert_L, default_mapping_dom3; set_solver|].
  repeat split; try done.
  - apply bind_fresh_lookup.
  - simpl. unfold grant, grantedArn. by rewrite Hbus.
Qed.

(** C2.  With no custom mapping and no target event bus, [bind] returns a
    configuration whose parameter mapping has exactly the three keys Detail,
    DetailType and Source, each mapped to the matching field of the request
    body, with no EventBusName entry, and the permission statement's resource
    is the wildcard ARN over all event buses of the partition, region and
    account of the route's stack. *)
Theorem bind_default_mapping_without_bus this options t :
  parameterMapping (props this) = None →
  eventBus (props this) = None →
  ¬ hasChild t (apigwv2.scope options) "InvokeRole" →
  ∃ config t' role statement,
    bind this options t = (Returned config, t') ∧
    dom (apigwv2.mappings (apigwv2.parameterMapping config))
      = {[ "Detail"; "DetailType"; "Source" ]} ∧
    apigwv2.mappings (apigwv2.parameterMapping config) !! "Detail"
      = Some "$request.body.Detail" ∧
    apigwv2.mappings (apigwv2.parameterMapping config) !! "DetailType"
      = Some "$request.body.DetailType" ∧
    apigwv2.mappings (apigwv2.parameterMapping config) !! "Source"
      = Some "$request.body.Source" ∧
    apigwv2.mappings (apigwv2.parameterMapping config) !! "EventBusName" = None ∧
    t' !! (apigwv2.scope options ++ ["InvokeRole"]) = Some (CRole role) ∧
    iam.policyStatements role = [statement] ∧
    iam.resources statement =
      [ "arn:" +:+ core.partition (apigwv2.stack (apigwv2.route options)) +:+
        ":events:" +:+ core.region (apigwv2.stack (apigwv2.route options)) +:+
        ":" +:+ core.account (apigwv2.stack (apigwv2.route options)) +:+
        ":event-bus/*" ].
Proof.
  intros Hmap Hbus Hfree.
  exists (boundConfig this options), (<[invokeRolePath options := CRole (invokeRole this options)]> t),
    (invokeRole this options), (grant this options).
  split; [by apply bind_fresh|].
  unfold boundConfig, createDefaultParameterMapping; simpl.
  rewrite Hmap, Hbus; simpl.
  split; [apply default_mapping_dom3|].
  repeat split; try done.
  - apply bind_fresh_lookup.
  - simpl. unfold grant, grantedArn. by rewrite Hbus.
Qed.

(** C3.  With a custom parameter mapping, [bind] returns a configuration
    whose parameter mapping is that custom mapping, with nothing merged in,
    whether or not a target event bus was supplied. *)
Theorem bind_custom_mapping_verbatim this options t mapping :
  parameterMapping (props this) = Some mapping →
  ¬ hasChild t (apigwv2.scope options) "InvokeRole" →
  ∃ config t',
    bind this options t = (Returned config, t') ∧
    apigwv2.parameterMapping config = mapping.
Proof.
  intros Hmap Hfree.
  exists (boundConfig this options), (<[invokeRolePath options := CRole (invokeRole this options)]> t).
  split; [by apply bind_fresh|].
  unfold boundConfig; simpl. by rewrite Hmap.
Qed.

(** C4.  The permission statement [bind] attaches to the role it created
    has effect Allow, the single action events:PutEvents, and exactly one
    resource: the ARN of the supplied bus, or else the wildcard ARN. *)
Theorem bind_grant_is_minimal this options t :
  ¬ hasChild t (apigwv2.scope options) "InvokeRole" →
  ∃ config t' role statement,
    bind this options t = (Returned config, t') ∧
    t' !! (apigwv2.scope options ++ ["InvokeRole"]) = Some (CRole role) ∧
    iam.policyStatements role = [statement] ∧
    iam.effect statement = iam.ALLOW ∧
    iam.actions statement = ["events:PutEvents"] ∧
    iam.resources statement =
      [ match eventBus (props this) with
        | Some bus => events.eventBusArn bus
        | None =>
            "arn:" +:+ core.partition (apigwv2.stack (apigwv2.route options)) +:+
            ":events:" +:+ core.region (apigwv2.stack (apigwv2.route options)) +:+
            ":" +:+ core.account (apigwv2.stack (apigwv2.route options)) +:+
            ":event-bus/*"
        end ].
Proof.
  intros Hfree.
  exists (boundConfig this options), (<[invokeRolePath options := CRole (invokeRole this options)]> t),
    (invokeRole this options), (grant this options).
  split; [by apply bind_fresh|].
  split; [apply bind_fresh_lookup|]. done.
Qed.

Lemma roles_insert_role t path role :
  t !! path = None →
  size (roles (<[path := CRole role]> t)) = S (size (roles t)).
Proof.
  intros Hnone. unfold roles.
  rewrite (omap_insert_Some roleOf t path (CRole role) role) by done.
  apply map_size_insert_None.
  by rewrite lookup_omap, Hnone.
Qed.

Lemma not_hasChild_lookup t scope name :
  ¬ hasChild t scope name → t !! (scope ++ [name]) = None.
Proof. unfold hasChild. by rewrite eq_None_not_Some. Qed.

(** C5, as the code has it.  Every [bind] invocation on a scope that has no
    child named InvokeRole, with or without a target event bus, creates
    exactly one new role: the tree afterwards is the tree before with that
    role added under the name that was free, so the number of roles grows by
    one.  The role carries exactly one permission
    statement, and its trust policy is the single statement that allows the
    service principal apigateway.amazonaws.com, and no other principal, the
    action sts:AssumeRole. *)
Theorem bind_creates_one_role this options t :
  ¬ hasChild t (apigwv2.scope options) "InvokeRole" →
  ∃ config t' role statement,
    bind this options t = (Returned config, t') ∧
    t !! (apigwv2.scope options ++ ["InvokeRole"]) = None ∧
    t' = <[apigwv2.scope options ++ ["InvokeRole"] := CRole role]> t ∧
    size (roles t') = S (size (roles t)) ∧
    iam.policyStatements role = [statement] ∧
    iam.assumeRolePolicy role =
      [ {| iam.effect := iam.ALLOW; iam.sid := None;
           iam.principals := [iam.ServicePrincipal "apigateway.amazonaws.com"];
           iam.actions := ["sts:AssumeRole"]; iam.resources := [] |} ].
Proof.
  intros Hfree.
  exists (boundConfig this options), (<[invokeRolePath options := CRole (invokeRole this options)]> t),
    (invokeRole this options), (grant this options).
  split; [by apply bind_fresh|].
  pose proof (not_hasChild_lookup _ _ _ Hfree) as Hnone.
  split; [done|]. split; [done|].
  split; [by apply roles_insert_role|]. done.
Qed.

(** C6.  The configuration [bind] returns has transport type AWS_PROXY,
    subtype EventBridge-PutEvents, payload format version 1.0 and connection
    type INTERNET, and its credentials are the role created by this very
    invocation: a role of the resulting tree that the tree did not have
    before. *)
Theorem bind_config_literals this options t :
  ¬ hasChild t (apigwv2.scope options) "InvokeRole" →
  ∃ config t' rolePath role,
    bind this options t = (Returned config, t') ∧
    apigwv2.type config = apigwv2.AWS_PROXY ∧
    apigwv2.integrationTypeValue (apigwv2.type config) = "AWS_PROXY" ∧
    apigwv2.subtype config = apigwv2.EVENTBRIDGE_PUT_EVENTS ∧
    apigwv2.integrationSubtypeValue (apigwv2.subtype config) = "EventBridge-PutEvents" ∧
    apigwv2.payloadFormatVersion config = apigwv2.VERSION_1_0 ∧
    apigwv2.version (apigwv2.payloadFormatVersion config) = "1.0" ∧
    apigwv2.connectionType config = apigwv2.INTERNET ∧
    apigwv2.connectionTypeValue (apigwv2.connectionType config) = "INTERNET" ∧
    apigwv2.credentials config = apigwv2.fromRole rolePath ∧
    t !! rolePath = None ∧
    t' !! rolePath = Some (CRole role).
Proof.
  intros Hfree.
  exists (boundConfig this options), (<[invokeRolePath options := CRole (invokeRole this options)]> t),
    (invokeRolePath options), (invokeRole this options).
  split; [by apply bind_fresh|].
  pose proof (not_hasChild_lookup _ _ _ Hfree) as Hnone.
  repeat split; try done.
  apply bind_fresh_lookup.
Qed.

(** C8, as the code has it.  [bind] has no error condition of its own, and
    for every combination of the optional inputs exactly one of two things
    happens.  When the scope has no child named InvokeRole, [bind] returns a
    configuration, and its only effect is that the tree gains the role,
    registered as InvokeRole under the scope and carrying its one permission
    statement: the tree afterwards is the tree before with that role added.
    When the scope has such a child, creating the role throws the construct
    tree's duplicate-name error, which [bind] lets through, and the tree is
    left as it was: no partial failure. *)
Theorem bind_returns_or_name_taken this options t :
  (¬ hasChild t (apigwv2.scope options) "InvokeRole" ∧
   ∃ config role statement,
     bind this options t =
       (Returned config,
        <[apigwv2.scope options ++ ["InvokeRole"] := CRole role]> t) ∧
     iam.policyStatements role = [statement]) ∨
  (hasChild t (apigwv2.scope options) "InvokeRole" ∧
   bind this options t =
     (Thrown (DuplicateConstructName "InvokeRole" (apigwv2.scope options)), t)).
Proof.
  destruct (decide (hasChild t (apigwv2.scope options) "InvokeRole")) as [Htaken|Hfree].
  - right. split; [done|]. by apply bind_taken.
  - left. split; [done|].
    exists (boundConfig this options), (invokeRole this options), (grant this options).
    split; [by apply bind_fresh | done].
Qed.

(** C9.  [bind] is deterministic, and the configuration it returns depends
    on nothing but its inputs: two invocations with the same integration
    instance and the same bind options return equal configurations, whatever
    else the two construct trees they run on contain. *)
Theorem bind_deterministic this options t1 t2 :
  ¬ hasChild t1 (apigwv2.scope options) "InvokeRole" →
  ¬ hasChild t2 (apigwv2.scope options) "InvokeRole" →
  ∃ config t1' t2',
    bind this options t1 = (Returned config, t1') ∧
    bind this options t2 = (Returned config, t2').
Proof.
  intros Hfree1 Hfree2.
  eexists _, _, _. split; by apply bind_fresh.
Qed.

(** C10.  The role is created under the fixed name InvokeRole in the scope
    of the bind options.  Hence [bind] returns exactly when that scope has no
    child of that name, the role it returns as credentials sits at that
    name, and of any two invocations one after the other on the same scope,
    the second throws the duplicate-name error for InvokeRole, whatever the
    first did. *)
Theorem bind_twice_same_scope this1 this2 options1 options2 t :
  apigwv2.scope options1 = apigwv2.scope options2 →
  ((∃ config t', bind this1 options1 t = (Returned config, t')) ↔
     ¬ hasChild t (apigwv2.scope options1) "InvokeRole") ∧
  (∀ config t', bind this1 options1 t = (Returned config, t') →
     apigwv2.credentials config =
       apigwv2.fromRole (apigwv2.scope options1 ++ ["InvokeRole"]) ∧
     ∃ role, t' !! (apigwv2.scope options1 ++ ["InvokeRole"]) = Some (CRole role)) ∧
  fst (bind this2 options2 (snd (bind this1 options1 t))) =
    Thrown (DuplicateConstructName "InvokeRole" (apigwv2.scope options2)).
Proof.
  intros Hscope.
  destruct (decide (hasChild t (apigwv2.scope options1) "InvokeRole")) as [Htaken|Hfree].
  - rewrite (bind_taken this1 options1 t Htaken).
    split; [|split].
    + split; [intros (config & t' & Hrun); discriminate | done].
    + intros config t' Hrun. discriminate.
    + simpl. rewrite bind_taken; [done|]. by rewrite <- Hscope.
  - rewrite (bind_fresh this1 options1 t Hfree).
    split; [|split].
    + split; [done|]. intros _. by eexists _, _.
    + intros config t' [= <- <-]. split; [done|].
      eexists. apply bind_fresh_lookup.
    + simpl. rewrite bind_taken; [done|].
      rewrite <- Hscope. unfold hasChild.
      fold (invokeRolePath options1). by rewrite lookup_insert_eq.
Qed.

(** C7.  When the target event bus is imported from nothing but its ARN,
    arn:P:events:R:A:event-bus/N, and no custom mapping is given, the default
    mapping [bind] returns maps EventBusName to N, the name parsed out of the
    ARN. *)
Theorem bind_imported_bus_name t importScope importId id options p r a name :
  lacks ":" p = true → lacks ":" r = true → lacks ":" a = true →
  lacks ":" name = true →
  ¬ hasChild t importScope importId →
  ¬ hasChild t (apigwv2.scope options) "InvokeRole" →
  importScope ++ [importId] ≠ apigwv2.scope options ++ ["InvokeRole"] →
  ∃ config t',
    (bus ← events.fromEventBusArn importScope importId (eventBusArnOf p r a name);
     bind (new id (Some {| parameterMapping := None; eventBus := Some bus |}))
       options) t
    = (Returned config, t') ∧
    apigwv2.mappings (apigwv2.parameterMapping config) !! "EventBusName" = Some name.
Proof.
  intros Hp Hr Ha Hname Himport Hrole Hne.
  unfold events.fromEventBusArn.
  rewrite splitArn_eventBusArnOf by done.
  unfold mbind, M_bind, addChild, mret, M_ret; simpl.
  rewrite decide_False by done.
  rewrite bind_fresh.
  - eexists _, _. split; [done|]. done.
  - unfold hasChild. rewrite lookup_insert_ne by done.
    by apply eq_None_not_Some, not_hasChild_lookup.
Qed.

End Claims.

(** ** The theorems at the inputs of the unit tests *)

Section Witnesses.

Import eventbridge.

(** Closed, decidable side conditions are settled by evaluation. *)
Ltac by_evaluation := apply (bool_decide_unpack _); vm_compute; exact I.

Lemma bind_default_mapping_with_bus_witness :
  ∃ config t' role statement,
    bind thisWithBus testOptions testTree = (Returned config, t') ∧
    dom (apigwv2.mappings (apigwv2.parameterMapping config))
      = {[ "Detail"; "DetailType"; "Source"; "EventBusName" ]} ∧
    apigwv2.mappings (apigwv2.parameterMapping config) !! "Detail"
      = Some "$request.body.Detail" ∧
    apigwv2.mappings (apigwv2.parameterMapping config) !! "DetailType"
      = Some "$request.body.DetailType" ∧
    apigwv2.mappings (apigwv2.parameterMapping config) !! "Source"
      = Some "$request.body.Source" ∧
    apigwv2.mappings (apigwv2.parameterMapping config) !! "EventBusName"
      = Some "orders" ∧
    t' !! ["stack"; "EventBridgeRoute"; "InvokeRole"] = Some (CRole role) ∧
    iam.policyStatements role = [statement] ∧
    iam.resources statement =
      ["arn:aws:events:us-east-1:123456789012:event-bus/orders"].
Proof.
  apply (bind_default_mapping_with_bus thisWithBus testOptions testTree testBus);
    [reflexivity | reflexivity | by_evaluation].
Defined.

Lemma bind_default_mapping_without_bus_witness :
  ∃ config t' role statement,
    bind thisDefault testOptions testTree = (Returned config, t') ∧
    dom (apigwv2.mappings (apigwv2.parameterMapping config))
      = {[ "Detail"; "DetailType"; "Source" ]} ∧
    apigwv2.mappings (apigwv2.parameterMapping config) !! "Detail"
      = Some "$request.body.Detail" ∧
    apigwv2.mappings (apigwv2.parameterMapping config) !! "DetailType"
      = Some "$request.body.DetailType" ∧
    apigwv2.mappings (apigwv2.parameterMapping config) !! "Source"
      = Some "$request.body.Source" ∧
    apigwv2.mappings (apigwv2.parameterMapping config) !! "EventBusName" = None ∧
    t' !! ["stack"; "EventBridgeRoute"; "InvokeRole"] = Some (CRole role) ∧
    iam.policyStatements role = [statement] ∧
    iam.resources statement = ["arn:aws:events:us-east-1:123456789012:event-bus/*"].
Proof.
  apply (bind_default_mapping_without_bus thisDefault testOptions testTree);
    [reflexivity | reflexivity | by_evaluation].
Defined.

Lemma bind_custom_mapping_verbatim_witness :
  ∃ config t',
    bind thisCustom testOptions testTree = (Returned config, t') ∧
    apigwv2.parameterMapping config = testMapping.
Proof.
  apply (bind_custom_mapping_verbatim thisCustom testOptions testTree testMapping);
    [reflexivity | by_evaluation].
Defined.

Lemma bind_grant_is_minimal_witness :
  ∃ config t' role statement,
    bind thisDefault testOptions testTree = (Returned config, t') ∧
    t' !! ["stack"; "EventBridgeRoute"; "InvokeRole"] = Some (CRole role) ∧
    iam.policyStatements role = [statement] ∧
    iam.effect statement = iam.ALLOW ∧
    iam.actions statement = ["events:PutEvents"] ∧
    iam.resources statement = ["arn:aws:events:us-east-1:123456789012:event-bus/*"].
Proof.
  apply (bind_grant_is_minimal thisDefault testOptions testTree); by_evaluation.
Defined.

Lemma bind_creates_one_role_witness :
  ∃ config t' role statement,
    bind thisWithBus testOptions testTree = (Returned config, t') ∧
    testTree !! ["stack"; "EventBridgeRoute"; "InvokeRole"] = None ∧
    t' = <[["stack"; "EventBridgeRoute"; "InvokeRole"] := CRole role]> testTree ∧
    size (roles t') = S (size (roles testTree)) ∧
    iam.policyStatements role = [statement] ∧
    iam.assumeRolePolicy role =
      [ {| iam.effect := iam.ALLOW; iam.sid := None;
           iam.principals := [iam.ServicePrincipal "apigateway.amazonaws.com"];
           iam.actions := ["sts:AssumeRole"]; iam.resources := [] |} ].
Proof.
  apply (bind_creates_one_role thisWithBus testOptions testTree); by_evaluation.
Defined.

Lemma bind_config_literals_witness :
  ∃ config t' rolePath role,
    bind thisWithBus testOptions testTree = (Returned config, t') ∧
    apigwv2.type config = apigwv2.AWS_PROXY ∧
    apigwv2.integrationTypeValue (apigwv2.type config) = "AWS_PROXY" ∧
    apigwv2.subtype config = apigwv2.EVENTBRIDGE_PUT_EVENTS ∧
    apigwv2.integrationSubtypeValue (apigwv2.subtype config) = "EventBridge-PutEvents" ∧
    apigwv2.payloadFormatVersion config = apigwv2.VERSION_1_0 ∧
    apigwv2.version (apigwv2.payloadFormatVersion config) = "1.0" ∧
    apigwv2.connectionType config = apigwv2.INTERNET ∧
    apigwv2.connectionTypeValue (apigwv2.connectionType config) = "INTERNET" ∧
    apigwv2.credentials config = apigwv2.fromRole rolePath ∧
    testTree !! rolePath = None ∧
    t' !! rolePath = Some (CRole role).
Proof.
  apply (bind_config_literals thisWithBus testOptions testTree); by_evaluation.
Defined.

Lemma bind_deterministic_witness :
  ∃ config t1' t2',
    bind thisWithBus testOptions testTree = (Returned config, t1') ∧
    bind thisWithBus testOptions testTree2 = (Returned config, t2').
Proof.
  apply (bind_deterministic thisWithBus testOptions testTree testTree2); by_evaluation.
Defined.

Lemma bind_twice_same_scope_witness :
  ((∃ config t', bind thisWithBus testOptions testTree = (Returned config, t')) ↔
     ¬ hasChild testTree ["stack"; "EventBridgeRoute"] "InvokeRole") ∧
  (∀ config t', bind thisWithBus testOptions testTree = (Returned config, t') →
     apigwv2.credentials config =
       apigwv2.fromRole ["stack"; "EventBridgeRoute"; "InvokeRole"] ∧
     ∃ role, t' !! ["stack"; "EventBridgeRoute"; "InvokeRole"] = Some (CRole role)) ∧
  fst (bind thisDefault testOptions (snd (bind thisWithBus testOptions testTree))) =
    Thrown (DuplicateConstructName "InvokeRole" ["stack"; "EventBridgeRoute"]).
Proof.
  apply (bind_twice_same_scope thisWithBus thisDefault testOptions testOptions testTree).
  reflexivity.
Defined.

Lemma bind_imported_bus_name_witness :
  ∃ config t',
    (bus ← events.fromEventBusArn ["stack"] "ImportedEventBus"
              "arn:aws:events:us-east-1:123456789012:event-bus/my-event-bus";
     bind (new "Integration" (Some {| parameterMapping := None; eventBus := Some bus |}))
       testOptions) testTree
    = (Returned config, t') ∧
    apigwv2.mappings (apigwv2.parameterMapping config) !! "EventBusName"
      = Some "my-event-bus".
Proof.
  apply (bind_imported_bus_name testTree ["stack"] "ImportedEventBus" "Integration"
           testOptions "aws" "us-east-1" "123456789012" "my-event-bus");
    try reflexivity; by_evaluation.
Defined.

(** C8, as the spec states it, fails: on the route scope of the unit tests
    as one [bind] has left it, a further [bind] returns no configuration; it
    throws. *)
Lemma bind_not_total :
  bind thisDefault testOptions boundTree =
    (Thrown (DuplicateConstructName "InvokeRole" ["stack"; "EventBridgeRoute"]),
     boundTree) ∧
  ¬ ∃ config t', bind thisDefault testOptions boundTree = (Returned config, t').
Proof.
  assert (Hrun : bind thisDefault testOptions boundTree =
    (Thrown (DuplicateConstructName "InvokeRole" ["stack"; "EventBridgeRoute"]),
     boundTree)).
  { apply (bind_taken thisDefault testOptions boundTree). by_evaluation. }
  split; [done|].
  intros (config & t' & Hret). rewrite Hrun in Hret. discriminate.
Qed.

(** C5, as the spec states it, fails: on the route scope of the unit tests
    as one [bind] has left it, a further [bind], here of an integration with
    an event bus, throws and creates no role; the roles of the tree are what
    they were. *)
Lemma bind_on_taken_scope_creates_no_role :
  fst (bind thisWithBus testOptions boundTree) =
    Thrown (DuplicateConstructName "InvokeRole" ["stack"; "EventBridgeRoute"]) ∧
  roles (snd (bind thisWithBus testOptions boundTree)) = roles boundTree ∧
  size (roles (snd (bind thisWithBus testOptions boundTree)))
    ≠ S (size (roles boundTree)).
Proof.
  assert (Hrun : bind thisWithBus testOptions boundTree =
    (Thrown (DuplicateConstructName "InvokeRole" ["stack"; "EventBridgeRoute"]),
     boundTree)).
  { apply (bind_taken thisWithBus testOptions boundTree). by_evaluation. }
  rewrite Hrun. simpl. split; [done|]. split; [done|]. lia.
Qed.

End Witnesses.

(** ** Further properties of [bind] *)

Section Frame.

Import eventbridge.

Implicit Types (this : HttpEventBridgeIntegration).
Implicit Types (options : apigwv2.HttpRouteIntegrationBindOptions).
Implicit Types (t : Tree).

Lemma invokeRolePath_ne options1 options2 :
  apigwv2.scope options1 ≠ apigwv2.scope options2 →
  invokeRolePath options1 ≠ invokeRolePath options2.
Proof.
  intros Hne Heq. apply Hne.
  unfold invokeRolePath in Heq. apply app_inj_tail in Heq as [Heq _]. done.
Qed.

Lemma hasChild_insert_ne t path c scope name :
  path ≠ scope ++ [name] →
  hasChild (<[path := c]> t) scope name ↔ hasChild t scope name.
Proof. intros Hne. unfold hasChild. by rewrite lookup_insert_ne. Qed.

(** Runs every [bind] of the goal, on a scope where the name is free or
    taken according to the hypotheses. *)
Ltac run_bind :=
  repeat first
    [ rewrite bind_taken by (first [done | by apply hasChild_insert_ne])
    | rewrite bind_fresh by (first [done | by rewrite hasChild_insert_ne])
    | progress simpl ].

Lemma bind_tree_grows this options t : t ⊆ snd (bind this options t).
Proof.
  destruct (decide (hasChild t (apigwv2.scope options) "InvokeRole")) as [Htaken|Hfree].
  - by rewrite bind_taken.
  - rewrite bind_fresh by done. simpl.
    by apply insert_subseteq, not_hasChild_lookup.
Qed.

Lemma bindEach_cons integration options rest t :
  bindEach ((integration, options) :: rest) t =
    match bind integration options t with
    | (Returned config, t1) =>
        match bindEach rest t1 with
        | (Returned configs, t2) => (Returned (config :: configs), t2)
        | (Thrown e, t2) => (Thrown e, t2)
        end
    | (Thrown e, t1) => (Thrown e, t1)
    end.
Proof.
  simpl. unfold mbind, M_bind.
  destruct (bind integration options t) as [[config|e] t1]; [|done].
  by destruct (bindEach rest t1) as [[configs|e] t2].
Qed.

Lemma bindEach_tree_grows routes t : t ⊆ snd (bindEach routes t).
Proof.
  revert t. induction routes as [|[integration options] rest IH]; intros t; [done|].
  rewrite bindEach_cons.
  pose proof (bind_tree_grows integration options t) as Hfirst.
  destruct (bind integration options t) as [[config|e] t1]; simpl in *; [|done].
  pose proof (IH t1) as Hrest.
  destruct (bindEach rest t1) as [[configs|e] t2]; simpl in *; by etrans.
Qed.

(** X1.  [bind] never removes or changes a construct, and registers nothing
    outside the role it creates: whether it returns or throws, every
    construct of the tree before is in the tree after, unchanged, and every
    path of the tree after that was not in the tree before is InvokeRole
    under the scope of the bind options or lies below it. *)
Theorem bind_preserves_constructs this options t :
  t ⊆ snd (bind this options t) ∧
  ∀ path : ConstructPath,
    is_Some (snd (bind this options t) !! path) →
    is_Some (t !! path) ∨
    (apigwv2.scope options ++ ["InvokeRole"]) `prefix_of` path.
Proof.
  split; [apply bind_tree_grows|]. intros path.
  destruct (decide (hasChild t (apigwv2.scope options) "InvokeRole")) as [Htaken|Hfree].
  - rewrite bind_taken by done. by left.
  - rewrite bind_fresh by done. simpl. unfold invokeRolePath.
    destruct (decide (apigwv2.scope options ++ ["InvokeRole"] = path)) as [<-|Hne].
    + by right.
    + rewrite lookup_insert_ne by done. by left.
Qed.

(** X2.  Invocations on different scopes do not interfere: in whichever
    order two of them run, each returns or throws what it would on its own,
    and the tree they leave is the same. *)
Theorem bind_commutes this1 this2 options1 options2 t :
  apigwv2.scope options1 ≠ apigwv2.scope options2 →
  fst (bind this2 options2 (snd (bind this1 options1 t))) = fst (bind this2 options2 t) ∧
  fst (bind this1 options1 (snd (bind this2 options2 t))) = fst (bind this1 options1 t) ∧
  snd (bind this2 options2 (snd (bind this1 options1 t))) =
    snd (bind this1 options1 (snd (bind this2 options2 t))).
Proof.
  intros Hne%invokeRolePath_ne.
  assert (Hne' : invokeRolePath options2 ≠ invokeRolePath options1) by done.
  destruct (decide (hasChild t (apigwv2.scope options1) "InvokeRole")) as [H1|H1];
  destruct (decide (hasChild t (apigwv2.scope options2) "InvokeRole")) as [H2|H2];
    rewrite ?(bind_taken this1 options1 t), ?(bind_taken this2 options2 t),
      ?(bind_fresh this1 options1 t), ?(bind_fresh this2 options2 t) by done;
    run_bind; try done.
  split; [done|]. split; [done|]. by apply insert_insert_ne.
Qed.

End Frame.

Section Routes.

Import eventbridge.

Implicit Types (this : HttpEventBridgeIntegration).
Implicit Types (options : apigwv2.HttpRouteIntegrationBindOptions).
Implicit Types (t : Tree).
Implicit Types
  (routes : list (HttpEventBridgeIntegration * apigwv2.HttpRouteIntegrationBindOptions)).

Lemma hasChild_mono t1 t2 scope name :
  t1 ⊆ t2 → hasChild t1 scope name → hasChild t2 scope name.
Proof.
  unfold hasChild. intros Hsub [c Hc]. exists c. by eapply lookup_weaken.
Qed.

Lemma fresh_after_bind this options t
  (r : HttpEventBridgeIntegration * apigwv2.HttpRouteIntegrationBindOptions) :
  ¬ hasChild t (apigwv2.scope options) "InvokeRole" →
  ¬ hasChild (<[invokeRolePath options := CRole (invokeRole this options)]> t)
      (apigwv2.scope r.2) "InvokeRole" ↔
  apigwv2.scope r.2 ≠ apigwv2.scope options ∧
  ¬ hasChild t (apigwv2.scope r.2) "InvokeRole".
Proof.
  intros Hfree. split.
  - intros Hr. split.
    + intros Heq. apply Hr. rewrite Heq. unfold hasChild.
      fold (invokeRolePath options). by rewrite lookup_insert_eq.
    + intros Ht. apply Hr. eapply hasChild_mono; [|done].
      by apply insert_subseteq, not_hasChild_lookup.
  - intros [Hne Hr]. rewrite hasChild_insert_ne; [done|].
    fold (invokeRolePath r.2). apply invokeRolePath_ne. by intros Heq.
Qed.

(** X3.  Direct invocations of [bind] one after the other, in scopes that
    are pairwise different and each without a child named InvokeRole: every
    invocation returns, the run leaves one more role per invocation, and the
    credentials of each configuration are the role under the scope of its
    own invocation, which still carries its one statement at the end of the
    run. *)
Theorem bindEach_distinct_scopes
  (calls : list (HttpEventBridgeIntegration * apigwv2.HttpRouteIntegrationBindOptions))
  t :
  NoDup (map (λ call, apigwv2.scope call.2) calls) →
  Forall (λ call, ¬ hasChild t (apigwv2.scope call.2) "InvokeRole") calls →
  ∃ configs t',
    bindEach calls t = (Returned configs, t') ∧
    size (roles t') = size (roles t) + length calls ∧
    Forall2 (λ call config,
       apigwv2.credentials config =
         apigwv2.fromRole (apigwv2.scope call.2 ++ ["InvokeRole"]) ∧
       ∃ role statement,
         t' !! (apigwv2.scope call.2 ++ ["InvokeRole"]) = Some (CRole role) ∧
         iam.policyStatements role = [statement]) calls configs.
Proof.
  revert t. induction calls as [|[this options] rest IH]; intros t Hdup Hfree.
  - exists [], t. split; [done|]. split; [simpl; lia|]. constructor.
  - apply NoDup_cons in Hdup as [Hnotin Hdup].
    apply Forall_cons in Hfree as [Hthis Hfree]. simpl in Hthis, Hnotin.
    destruct (IH (<[invokeRolePath options := CRole (invokeRole this options)]> t))
      as (configs & t' & Hrun & Hsize & Hall); [done| |].
    { rewrite Forall_forall in Hfree. apply Forall_forall. intros r Hr.
      apply (fresh_after_bind this options t r Hthis). split; [|by apply Hfree].
      intros Heq. apply Hnotin. rewrite <- Heq.
      by apply (list_elem_of_fmap_2 (λ r, apigwv2.scope r.2)). }
    exists (boundConfig this options :: configs), t'.
    rewrite bindEach_cons, bind_fresh, Hrun by done.
    split; [done|]. split.
    { rewrite Hsize, roles_insert_role by (by apply not_hasChild_lookup).
      simpl. lia. }
    constructor; [|done]. split; [done|].
    exists (invokeRole this options), (grant this options). split; [|done].
    pose proof (bindEach_tree_grows rest
      (<[invokeRolePath options := CRole (invokeRole this options)]> t)) as Hsub.
    rewrite Hrun in Hsub. eapply lookup_weaken; [|exact Hsub].
    apply bind_fresh_lookup.
Qed.

(** X4.  When two routes of a run share a scope, or the scope of one
    already has a child named InvokeRole, the run throws the duplicate-name
    error for InvokeRole in the scope of one of its routes. *)
Theorem bindEach_throws_on_clash routes t :
  ¬ (NoDup (map (λ r, apigwv2.scope r.2) routes) ∧
     Forall (λ r, ¬ hasChild t (apigwv2.scope r.2) "InvokeRole") routes) →
  ∃ scope,
    scope ∈ map (λ r, apigwv2.scope r.2) routes ∧
    fst (bindEach routes t) = Thrown (DuplicateConstructName "InvokeRole" scope).
Proof.
  revert t. induction routes as [|[this options] rest IH]; intros t Hclash.
  - exfalso. apply Hclash. split; constructor.
  - rewrite bindEach_cons.
    destruct (decide (hasChild t (apigwv2.scope options) "InvokeRole")) as [Htaken|Hthis].
    + rewrite bind_taken by done. exists (apigwv2.scope options).
      split; [|done]. simpl. left.
    + rewrite bind_fresh by done.
      destruct (IH (<[invokeRolePath options := CRole (invokeRole this options)]> t))
        as (scope & Hin & Hthrown).
      { intros [Hdup Hfree]. apply Hclash.
        rewrite Forall_forall in Hfree.
        split.
        - simpl. apply NoDup_cons. split; [|done].
          intros (r & Heq & Hr)%list_elem_of_fmap.
          apply Hfree in Hr.
          apply (fresh_after_bind this options t r Hthis) in Hr as [Hne _].
          by apply Hne.
        - apply Forall_cons. split; [done|].
          apply Forall_forall. intros r Hr. apply Hfree in Hr.
          by apply (fresh_after_bind this options t r Hthis) in Hr as [_ Hr]. }
      exists scope. split; [simpl; by right|].
      destruct (bindEach rest _) as [[configs|e] t2]; simpl in *; [done|done].
Qed.

End Routes.

Section Independence.

Import eventbridge.

Implicit Types (this : HttpEventBridgeIntegration).
Implicit Types (options : apigwv2.HttpRouteIntegrationBindOptions).
Implicit Types (t : Tree).

(** X5.  What [bind] registers is decided by the event bus alone: two
    integrations with the same event bus leave the same tree, role and
    permission statement included, and throw the same errors, whatever their
    ids and parameter mappings are.  A custom mapping never changes the
    permission. *)
Theorem bind_grant_ignores_mapping this1 this2 options t :
  eventBus (props this1) = eventBus (props this2) →
  snd (bind this1 options t) = snd (bind this2 options t) ∧
  ∀ e, fst (bind this1 options t) = Thrown e ↔ fst (bind this2 options t) = Thrown e.
Proof.
  intros Hbus.
  destruct (decide (hasChild t (apigwv2.scope options) "InvokeRole")) as [Htaken|Hfree].
  - by rewrite !bind_taken.
  - rewrite !bind_fresh by done. simpl. split; [|done].
    unfold invokeRole, grant, grantedArn. by rewrite Hbus.
Qed.

(** X6.  The stack of the route is read for the wildcard only: two
    invocations in the same scope return the same configuration or throw the
    same error whatever the partition, region and account of their stacks,
    and when an event bus is supplied they leave the same tree as well. *)
Theorem bind_reads_stack_for_wildcard_only this options1 options2 t :
  apigwv2.scope options1 = apigwv2.scope options2 →
  fst (bind this options1 t) = fst (bind this options2 t) ∧
  (is_Some (eventBus (props this)) →
   bind this options1 t = bind this options2 t).
Proof.
  intros Hscope.
  destruct (decide (hasChild t (apigwv2.scope options1) "InvokeRole")) as [Htaken|Hfree].
  - rewrite (bind_taken this options1 t Htaken).
    rewrite Hscope in Htaken. rewrite (bind_taken this options2 t Htaken).
    by rewrite Hscope.
  - rewrite (bind_fresh this options1 t Hfree).
    rewrite Hscope in Hfree. rewrite (bind_fresh this options2 t Hfree).
    unfold boundConfig, invokeRolePath, invokeRole, grant, grantedArn.
    rewrite Hscope. split; [done|].
    intros [bus Hbus]. by rewrite Hbus.
Qed.

(** X8.  The default mapping always has the three request-body entries, and
    it has the EventBusName entry exactly when an event bus is supplied,
    mapped to the name of the bus whatever that name is, the empty string
    included: three entries without a bus, four with one. *)
Theorem createDefaultParameterMapping_entries this :
  apigwv2.mappings (createDefaultParameterMapping this) !! "Detail"
    = Some "$request.body.Detail" ∧
  apigwv2.mappings (createDefaultParameterMapping this) !! "DetailType"
    = Some "$request.body.DetailType" ∧
  apigwv2.mappings (createDefaultParameterMapping this) !! "Source"
    = Some "$request.body.Source" ∧
  apigwv2.mappings (createDefaultParameterMapping this) !! "EventBusName"
    = events.eventBusName <$> eventBus (props this) ∧
  size (apigwv2.mappings (createDefaultParameterMapping this))
    = match eventBus (props this) with Some _ => 4 | None => 3 end.
Proof.
  unfold createDefaultParameterMapping.
  destruct (eventBus (props this)) as [bus|]; simpl;
    repeat split; try done;
    by rewrite !map_size_insert_None, map_size_empty by (by simplify_map_eq).
Qed.

End Independence.

(** ** The further properties at the inputs of the tests *)

Section FurtherWitnesses.

Import eventbridge.

Ltac by_evaluation := apply (bool_decide_unpack _); vm_compute; exact I.

Lemma bind_commutes_witness :
  fst (bind thisDefault (integScope "POST--default-bus")
         (snd (bind thisWithBus (integScope "POST--events") integTree)))
    = fst (bind thisDefault (integScope "POST--default-bus") integTree) ∧
  fst (bind thisWithBus (integScope "POST--events")
         (snd (bind thisDefault (integScope "POST--default-bus") integTree)))
    = fst (bind thisWithBus (integScope "POST--events") integTree) ∧
  snd (bind thisDefault (integScope "POST--default-bus")
         (snd (bind thisWithBus (integScope "POST--events") integTree)))
    = snd (bind thisWithBus (integScope "POST--events")
         (snd (bind thisDefault (integScope "POST--default-bus") integTree))).
Proof.
  apply (bind_commutes thisWithBus thisDefault
           (integScope "POST--events") (integScope "POST--default-bus") integTree).
  by_evaluation.
Defined.

Lemma bindEach_distinct_scopes_witness :
  ∃ configs t',
    bindEach integRoutes integTree = (Returned configs, t') ∧
    size (roles t') = size (roles integTree) + 3 ∧
    Forall2 (λ r config,
       apigwv2.credentials config =
         apigwv2.fromRole (apigwv2.scope r.2 ++ ["InvokeRole"]) ∧
       ∃ role statement,
         t' !! (apigwv2.scope r.2 ++ ["InvokeRole"]) = Some (CRole role) ∧
         iam.policyStatements role = [statement]) integRoutes configs.
Proof.
  apply (bindEach_distinct_scopes integRoutes integTree); by_evaluation.
Defined.

Lemma bindEach_throws_on_clash_witness :
  ∃ scope,
    scope ∈ map (λ r, apigwv2.scope r.2)
      [(thisWithBus, testOptions); (thisDefault, testOptions)] ∧
    fst (bindEach [(thisWithBus, testOptions); (thisDefault, testOptions)] testTree)
      = Thrown (DuplicateConstructName "InvokeRole" scope).
Proof.
  apply (bindEach_throws_on_clash
           [(thisWithBus, testOptions); (thisDefault, testOptions)] testTree).
  by_evaluation.
Defined.

Lemma bind_grant_ignores_mapping_witness :
  snd (bind thisWithBus testOptions testTree) = snd (bind thisCustom testOptions testTree) ∧
  ∀ e, fst (bind thisWithBus testOptions testTree) = Thrown e ↔
       fst (bind thisCustom testOptions testTree) = Thrown e.
Proof.
  apply (bind_grant_ignores_mapping thisWithBus thisCustom testOptions testTree).
  reflexivity.
Defined.

Lemma bind_reads_stack_for_wildcard_only_witness :
  fst (bind thisWithBus testOptions testTree)
    = fst (bind thisWithBus testOptionsChina testTree) ∧
  (is_Some (eventBus (props thisWithBus)) →
   bind thisWithBus testOptions testTree = bind thisWithBus testOptionsChina testTree).
Proof.
  apply (bind_reads_stack_for_wildcard_only thisWithBus testOptions testOptionsChina
           testTree).
  reflexivity.
Defined.

End FurtherWitnesses.
